(** * The notebook "Hidden in Time, Revealed in Frequency": a shallow embedding

    The notebook [Hidden_in_Time,_Revealed_in_Frequency.ipynb] holds six code
    cells: the imports, one cell for each of [extract_stft_features] and
    [extract_wavelet_features], two cells that define
    [apply_feature_extraction], and one that defines
    [apply_functions_for_server_direction].

    A cell is compiled before it is run, and a cell that does not compile
    binds no name.  In the two extractor cells the first statement after the
    docstring (notebook lines 105 and 157) is indented by eight spaces while
    the docstring before it and the statements after it are indented by
    four: Python refuses both cells with "IndentationError: unexpected
    indent", so neither extractor is ever defined, and a later use of their
    names raises NameError.  The embedding keeps the indentation of every
    logical line of every cell, checks it the way Python does, and derives
    from it which names the notebook binds.  The two batch functions are
    translated statement by statement, as state-and-exception passing
    functions over the one DataFrame they change in place. *)

From Stdlib Require Import String ZArith Lia Bool Arith List.
Import ListNotations.
Local Open Scope Z_scope.
Local Open Scope list_scope.

(** ** Python values, exceptions and warnings *)

(** Exceptions the modelled code can raise. *)
Inductive exn : Type :=
| NameError (name : string)        (* name 'name' is not defined *)
| KeyError (key : string)
| ValueError (msg : string)
| OtherError (origin : string).
    (* any other exception (IndexError, TypeError, ...); [origin] is its
       message *)

(** A warning issued through [warnings.warn]: its category and message. *)
Record warning : Type := {
  category : string;
  message : string
}.

Definition warning_eq_dec (a b : warning) : {a = b} + {a <> b}.
Proof. decide equality; apply string_dec. Defined.

Inductive result (A : Type) : Type :=
| Ok (a : A)
| Raise (e : exn).
Arguments Ok {A} a.
Arguments Raise {A} e.

(** [float64] is the type of the elements of numpy arrays; nothing here
    depends on their values. *)
Class Kernels : Type := {
  float64 : Type
}.

(** The instance that forgets the values; used for closed evaluations. *)
Definition ShapeOnly : Kernels := {| float64 := unit |}.

(** ** The interpreter state and the monad of calls *)

Section Model.
Context {K : Kernels}.

(** A sample of a signal: a Python int or a float. *)
Inductive sample : Type :=
| SInt (z : Z)
| SFloat (x : float64).

(** A table cell: a sequence of numbers, or anything that is not a sequence
    (a label, a number, None). *)
Inductive pyval : Type :=
| PySeq (xs : list sample)
| PyScalar (repr : string).

Definition Series : Type := list pyval.

(** A pandas DataFrame: its columns in order, each a name and the cells of
    the rows in row order. *)
Definition DataFrame : Type := list (string * Series).

(** The state a call can read or change: the registry of warnings already
    issued (Python shows a warning once per location under the default
    filter) and the one DataFrame object a batch function is handed. *)
Record pystate : Type := {
  registry : list warning;
  frame : DataFrame
}.

Definition M (A : Type) : Type := pystate -> result A * pystate.

Definition ret {A} (a : A) : M A := fun s => (Ok a, s).

Definition bind {A B} (m : M A) (k : A -> M B) : M B :=
  fun s => match m s with
           | (Ok a, s') => k a s'
           | (Raise e, s') => (Raise e, s')
           end.

Definition raise {A} (e : exn) : M A := fun s => (Raise e, s).

Definition warn (w : warning) : M unit :=
  fun s => (Ok tt,
            if in_dec warning_eq_dec w (registry s) then s
            else {| registry := w :: registry s; frame := frame s |}).

Definition get_frame : M DataFrame := fun s => (Ok (frame s), s).

Definition put_frame (df : DataFrame) : M unit :=
  fun s => (Ok tt, {| registry := registry s; frame := df |}).

Notation "x <- m ;; k" := (bind m (fun x => k))
  (at level 61, m at next level, right associativity).

Notation "m ;;; k" := (bind m (fun _ => k))
  (at level 61, right associativity).

(** [[f(x) for x in xs]] and the body of a [for] loop that collects. *)
Fixpoint mapM {A B} (f : A -> M B) (xs : list A) : M (list B) :=
  match xs with
  | [] => ret []
  | x :: xs' => y <- f x ;; ys <- mapM f xs' ;; ret (y :: ys)
  end.

(** The result of a call, without the final state. *)
Definition outcome {A} (m : M A) (s : pystate) : result A := fst (m s).

(** ** pandas *)

(** [df.columns] *)
Definition df_columns (df : DataFrame) : list string := map fst df.

(** [col in df.columns] *)
Definition has_column (col : string) (df : DataFrame) : bool :=
  existsb (String.eqb col) (df_columns df).

Definition lookup_column (col : string) (df : DataFrame) : option Series :=
  match find (fun c => String.eqb col (fst c)) df with
  | Some c => Some (snd c)
  | None => None
  end.

(** [df[name] = series] on a frame value: replaces the column of that name
    in place, or appends a new last column. *)
Fixpoint set_column (df : DataFrame) (name : string) (s : Series) : DataFrame :=
  match df with
  | [] => [(name, s)]
  | (n, c) :: df' =>
      if String.eqb name n then (n, s) :: df'
      else (n, c) :: set_column df' name s
  end.

(** [df[col]] *)
Definition df_getitem (col : string) : M Series :=
  df <- get_frame ;;
  match lookup_column col df with
  | Some s => ret s
  | None => raise (KeyError col)
  end.

(** [df[name] = series] *)
Definition df_setitem (name : string) (s : Series) : M unit :=
  df <- get_frame ;;
  put_frame (set_column df name s).

(** [series.apply(f)]: [f] on every cell, in row order. *)
Definition series_apply {B} (f : pyval -> M B) (s : Series) : M (list B) :=
  mapM f s.

(** [.apply(list)] on a series of float arrays. *)
Definition to_list (v : list float64) : pyval := PySeq (map SFloat v).

End Model.

(** ** Cells and their indentation *)

(** A logical line of a cell, as Python's tokenizer sees it: the number of
    spaces before its first token, and whether it ends with a colon and so
    opens a block.  A docstring or a bracketed expression that runs over
    several physical lines is one logical line; blank lines and lines that
    hold only a comment are no logical lines. *)
Record line : Type := {
  indent : nat;
  opens_block : bool
}.

Definition stmt (i : nat) : line := {| indent := i; opens_block := false |}.

Definition header (i : nat) : line := {| indent := i; opens_block := true |}.

Inductive compile_result : Type :=
| Compiles
| IndentationError (msg : string).

(** Leaving blocks: pop the indentation levels deeper than [i]; the level
    reached has to be [i] itself. *)
Fixpoint dedent (stack : list nat) (i : nat) : option (list nat) :=
  match stack with
  | [] => None
  | top :: below =>
      if (top =? i)%nat then Some stack
      else if (top <? i)%nat then None
      else dedent below i
  end.

(** The indentation rule.  [stack] holds the indentation of the enclosing
    blocks, innermost first; [expect_block] says that the line before ended
    with a colon. *)
Fixpoint check_indentation (stack : list nat) (expect_block : bool)
    (lines : list line) : compile_result :=
  match lines with
  | [] =>
      if expect_block then IndentationError "expected an indented block" else Compiles
  | l :: rest =>
      let top := hd 0%nat stack in
      if expect_block then
        if (top <? indent l)%nat
        then check_indentation (indent l :: stack) (opens_block l) rest
        else IndentationError "expected an indented block"
      else if (top <? indent l)%nat then IndentationError "unexpected indent"
      else match dedent stack (indent l) with
           | Some stack' => check_indentation stack' (opens_block l) rest
           | None => IndentationError "unindent does not match any outer indentation level"
           end
  end.

Definition compile (lines : list line) : compile_result :=
  check_indentation [0%nat] false lines.

(** A code cell: the names its [def] statements bind when it runs, and its
    logical lines. *)
Record cell : Type := {
  defines : list string;
  lines : list line
}.

(** Cell 1 (notebook lines 55-60): the imports. *)
Definition cell_imports : cell :=
  {| defines := [];
     lines := [stmt 0; stmt 0; stmt 0; stmt 0; stmt 0; stmt 0] |}.

(** Cell 2 (notebook lines 76-123). *)
Definition cell_extract_stft_features : cell :=
  {| defines := ["extract_stft_features"%string];
     lines := [ header 0;   (* def extract_stft_features(...) -> np.ndarray:   76 *)
                stmt 4;     (* the docstring                               77-104 *)
                stmt 8;     (* f, t, Zxx = scipy.signal.stft(...)             105 *)
                stmt 4;     (* mag_spectrogram = np.abs(Zxx)                  106 *)
                header 4;   (* if not features_to_extract:                    107 *)
                stmt 8;     (* features_to_extract = (...)                108-109 *)
                stmt 4;     (* feature_map = {...}                        110-120 *)
                stmt 4;     (* computed_features = [...]                      121 *)
                stmt 4;     (* feature_vec = np.concatenate(...)              122 *)
                stmt 4 ]    (* return feature_vec                             123 *)
  |}.

(** Cell 3 (notebook lines 129-183). *)
Definition cell_extract_wavelet_features : cell :=
  {| defines := ["extract_wavelet_features"%string];
     lines := [ header 0;   (* def extract_wavelet_features(...) -> np.ndarray: 129-130 *)
                stmt 4;     (* the docstring                               131-156 *)
                stmt 8;     (* coeffs = pywt.wavedec(data, wavelet, level=level) 157 *)
                stmt 4;     (* epsilon = 1e-10                                158 *)
                stmt 4;     (* feature_map = {...}                        160-170 *)
                header 4;   (* if not features_to_extract:                    173 *)
                stmt 8;     (* features_to_extract = list(feature_map.keys()) 174 *)
                stmt 4;     (* computed_features = []                         177 *)
                header 4;   (* for coeff in coeffs:                           178 *)
                stmt 8;     (* computed_features.extend([...])                179 *)
                stmt 4;     (* feature_vec = np.array(computed_features)      182 *)
                stmt 4 ]    (* return feature_vec                             183 *)
  |}.

(** Cell 4 (notebook lines 194-199): the first [apply_feature_extraction]. *)
Definition cell_apply_feature_extraction_1 : cell :=
  {| defines := ["apply_feature_extraction"%string];
     lines := [ header 0; header 4; header 8; stmt 12; stmt 12; stmt 4 ] |}.

(** Cell 5 (notebook lines 210-224). *)
Definition cell_apply_functions_for_server_direction : cell :=
  {| defines := ["apply_functions_for_server_direction"%string];
     lines := [ header 0; stmt 4; header 4; stmt 8; stmt 8; stmt 4 ] |}.

(** Cell 6 (notebook lines 235-257): the final [apply_feature_extraction]. *)
Definition cell_apply_feature_extraction : cell :=
  {| defines := ["apply_feature_extraction"%string];
     lines := [ header 0; stmt 4; header 4; header 8; stmt 12; stmt 12; stmt 4 ] |}.

Definition notebook : list cell :=
  [ cell_imports; cell_extract_stft_features; cell_extract_wavelet_features;
    cell_apply_feature_extraction_1; cell_apply_functions_for_server_direction;
    cell_apply_feature_extraction ].

(** The names bound once every cell has been run, each cell on its own (a
    cell that fails leaves the namespace as it was and does not keep the
    others from running). *)
Definition run_cells (cells : list cell) : list string :=
  flat_map (fun c => match compile (lines c) with
                     | Compiles => defines c
                     | IndentationError _ => []
                     end) cells.

Definition bound (name : string) : bool :=
  existsb (String.eqb name) (run_cells notebook).

(** What the [def] statements of the two extractor cells describe: the
    functions a cell would bind to the names if it compiled.  They are left
    open; nothing below depends on them. *)
Class Extractors {K : Kernels} : Type := {
  stft_function : pyval -> option (list string) -> M (list float64);
  wavelet_function : pyval -> option (list string) -> string -> Z -> M (list float64)
}.

Section Functions.
Context {K : Kernels} {EX : Extractors}.

Notation "x <- m ;; k" := (bind m (fun x => k))
  (at level 61, m at next level, right associativity).

Notation "m ;;; k" := (bind m (fun _ => k))
  (at level 61, right associativity).

(** Evaluating a global name: its value when a cell has bound it, NameError
    otherwise. *)
Definition load_global {A} (name : string) (value : A) : M A :=
  if bound name then ret value else raise (NameError name).

(** ** The calls [extract_stft_features(data, features_to_extract)] and
    [extract_wavelet_features(data, features_to_extract, wavelet, level)] *)

Definition extract_stft_features (data : pyval)
    (features_to_extract : option (list string)) : M (list float64) :=
  f <- load_global "extract_stft_features" stft_function ;;
  f data features_to_extract.

Definition extract_wavelet_features (data : pyval)
    (features_to_extract : option (list string))
    (wavelet : string) (level : Z) : M (list float64) :=
  f <- load_global "extract_wavelet_features" wavelet_function ;;
  f data features_to_extract wavelet level.

(** ** apply_feature_extraction

    The DataFrame argument [df] is an object passed by reference and changed
    in place; it is the [frame] of the state.  The returned value is that
    same object.  In [df[col].apply(extract_stft_features)] the column is
    read first, then the name is evaluated, then the function is applied to
    every cell with its default arguments. *)

(** First definition (notebook lines 194-199). *)
Fixpoint apply_feature_extraction_loop_1 (columns : list string) : M unit :=
  match columns with
  | [] => ret tt
  | col :: columns' =>
      df <- get_frame ;;
      (if has_column col df then
         src <- df_getitem col ;;
         f <- load_global "extract_stft_features" stft_function ;;
         a <- series_apply (fun data => f data None) src ;;
         df_setitem (String.append "stft_" col) (map to_list a) ;;;
         src <- df_getitem col ;;
         g <- load_global "extract_wavelet_features" wavelet_function ;;
         b <- series_apply (fun data => g data None "coif6"%string 4) src ;;
         df_setitem (String.append "dwt_" col) (map to_list b)
       else ret tt) ;;;
      apply_feature_extraction_loop_1 columns'
  end.

Definition apply_feature_extraction_1 (columns : list string) : M DataFrame :=
  apply_feature_extraction_loop_1 columns ;;; get_frame.

(** Final definition (notebook lines 235-257), the one a call reaches. *)
Fixpoint apply_feature_extraction_loop (columns : list string) : M unit :=
  match columns with
  | [] => ret tt
  | col :: columns' =>
      df <- get_frame ;;
      (if has_column col df then
         src <- df_getitem col ;;
         f <- load_global "extract_stft_features" stft_function ;;
         a <- series_apply (fun data => f data None) src ;;
         df_setitem (String.append "stft_" col) (map to_list a) ;;;
         src <- df_getitem col ;;
         g <- load_global "extract_wavelet_features" wavelet_function ;;
         b <- series_apply (fun data => g data None "coif6"%string 4) src ;;
         df_setitem (String.append "dwt_" col) (map to_list b)
       else ret tt) ;;;
      apply_feature_extraction_loop columns'
  end.

Definition apply_feature_extraction (columns : list string) : M DataFrame :=
  apply_feature_extraction_loop columns ;;; get_frame.

(** ** apply_functions_for_server_direction (notebook lines 210-224)

    A function object as the loop uses it: its [__name__], and its call
    [func(x, n=n, direction=direction)], which like any call may raise, warn
    and reach the DataFrame.  An element of [functions_with_args] is a tuple
    of a function and its additional arguments; [for func, *args in ...]
    binds [args] to the list of these arguments. *)
Record pyfunc : Type := {
  fn_name : string;                              (* func.__name__ *)
  fn_call : pyval -> pyval -> Z -> M pyval       (* func(x, n=..., direction=...) *)
}.

(** [args[0]] *)
Definition args_getitem0 (args : list pyval) : M pyval :=
  match args with
  | [] => raise (OtherError "list index out of range")   (* IndexError *)
  | n :: _ => ret n
  end.

Fixpoint apply_functions_for_server_direction_loop (column : string)
    (functions_with_args : list (pyfunc * list pyval)) : M unit :=
  match functions_with_args with
  | [] => ret tt
  | (func, args) :: functions_with_args' =>
      let func_name := fn_name func in
      src <- df_getitem column ;;
      cells <- series_apply (fun x => n <- args_getitem0 args ;; fn_call func x n 1) src ;;
      df_setitem (String.append func_name "_server") cells ;;;
      apply_functions_for_server_direction_loop column functions_with_args'
  end.

Definition apply_functions_for_server_direction (column : string)
    (functions_with_args : list (pyfunc * list pyval)) : M DataFrame :=
  apply_functions_for_server_direction_loop column functions_with_args ;;; get_frame.

(** ** Results that do not depend on the state

    [yields m r]: from every state the call [m] ends with the result [r] and
    leaves the DataFrame untouched; it may add warnings to the registry and
    removes none. *)
Definition yields {A} (m : M A) (r : result A) : Prop :=
  forall st, exists reg,
    m st = (r, {| registry := reg; frame := frame st |}) /\ incl (registry st) reg.

(** The exception monad obtained by forgetting the state. *)
Definition rbind {A B} (r : result A) (k : A -> result B) : result B :=
  match r with
  | Ok a => k a
  | Raise e => Raise e
  end.

Fixpoint rmapM {A B} (f : A -> result B) (xs : list A) : result (list B) :=
  match xs with
  | [] => Ok []
  | x :: xs' => rbind (f x) (fun y => rbind (rmapM f xs') (fun ys => Ok (y :: ys)))
  end.

(** ** Columns written by apply_functions_for_server_direction *)

Definition server_name (func_name : string) : string :=
  String.append func_name "_server".

(** The argument passed as [n], for a tuple that has one. *)
Definition first_arg (args : list pyval) : pyval :=
  match args with
  | n :: _ => n
  | [] => PyScalar ""
  end.

(** The assignment of one round of the loop, for functions whose value on a
    cell [x] with the argument [n] is [value func x n]. *)
Definition server_step (value : pyfunc -> pyval -> pyval -> pyval) (src : Series)
    (df : DataFrame) (fa : pyfunc * list pyval) : DataFrame :=
  set_column df (server_name (fn_name (fst fa)))
             (map (fun x => value (fst fa) x (first_arg (snd fa))) src).

(** The function behaves as a mathematical function on the cells of [src]:
    called with [n] and [direction=1] it returns [value func x n], from any
    state, and leaves the DataFrame alone. *)
Definition pure_on (value : pyfunc -> pyval -> pyval -> pyval) (src : Series)
    (fa : pyfunc * list pyval) : Prop :=
  exists n rest, snd fa = n :: rest
    /\ forall x, In x src -> yields (fn_call (fst fa) x n 1) (Ok (value (fst fa) x n)).

End Functions.

(** ** Closed evaluations *)

(** For closed evaluations the extractor functions are taken to return the
    empty vector; no evaluation reaches them. *)
Definition Unreached : @Extractors ShapeOnly :=
  {| stft_function := fun _ _ => (fun s => (Ok [], s));
     wavelet_function := fun _ _ _ _ => (fun s => (Ok [], s)) |}.

Definition st0 : @pystate ShapeOnly := {| registry := []; frame := [] |}.

(** The signal [1, 2, ..., n]. *)
Definition samples (n : nat) : list (@sample ShapeOnly) :=
  map (fun k => SInt (Z.of_nat k)) (seq 1 n).

Definition signal (n : nat) : @pyval ShapeOnly := PySeq (samples n).

Definition with_frame (df : @DataFrame ShapeOnly) : @pystate ShapeOnly :=
  {| registry := []; frame := df |}.

(** A function [def name(x, n, direction): return body(x, n)], and the value
    a function returns when called with [direction=1] from the empty state. *)
Definition named (name : string)
    (body : @pyval ShapeOnly -> @pyval ShapeOnly -> @pyval ShapeOnly)
    : @pyfunc ShapeOnly :=
  {| fn_name := name; fn_call := fun x n _ => (fun s => (Ok (body x n), s)) |}.

Definition result_of (func : @pyfunc ShapeOnly) (x n : @pyval ShapeOnly)
    : @pyval ShapeOnly :=
  match fst (fn_call func x n 1 st0) with
  | Ok v => v
  | Raise _ => x
  end.

Notation "x <- m ;; k" := (bind m (fun x => k))
  (at level 61, m at next level, right associativity).
Notation "m ;;; k" := (bind m (fun _ => k))
  (at level 61, right associativity).

(** * Proofs *)

Section Proofs.
Context {K : Kernels} {EX : Extractors}.

(** ** The monad *)

Lemma yields_ret {A} (a : A) : yields (ret a) (Ok a).
Proof. intros [reg df]; exists reg; split; [reflexivity|apply incl_refl]. Qed.

Lemma yields_bind {A B} (m : M A) (k : A -> M B) r (kr : A -> result B) :
  yields m r ->
  (forall a, r = Ok a -> yields (k a) (kr a)) ->
  yields (bind m k) (rbind r kr).
Proof.
  intros Hm Hk st. destruct (Hm st) as (reg & Hst & Hreg). unfold bind. rewrite Hst.
  destruct r as [a|e]; cbn.
  - destruct (Hk a eq_refl {| registry := reg; frame := frame st |})
      as (reg' & Hk' & Hreg').
    exists reg'. split; [exact Hk'|]. eapply incl_tran; [exact Hreg|exact Hreg'].
  - exists reg. split; [reflexivity|exact Hreg].
Qed.

Lemma yields_bind_ok {A B} (m : M A) (k : A -> M B) a r :
  yields m (Ok a) -> yields (k a) r -> yields (bind m k) r.
Proof.
  intros Hm Hk.
  apply (yields_bind m k (Ok a) (fun _ => r) Hm).
  intros a' E; injection E as <-; exact Hk.
Qed.

Lemma yields_eq {A} (m : M A) r r' : yields m r -> r = r' -> yields m r'.
Proof. now intros H <-. Qed.

Lemma yields_mapM {A B} (f : A -> M B) (g : A -> result B) xs :
  (forall x, In x xs -> yields (f x) (g x)) ->
  yields (mapM f xs) (rmapM g xs).
Proof.
  induction xs as [|x xs IH]; intros H; cbn [mapM rmapM].
  - apply yields_ret.
  - apply yields_bind; [apply H; now left|]. intros y _.
    apply yields_bind; [apply IH; intros; apply H; now right|].
    intros ys _. apply yields_ret.
Qed.

Lemma rmapM_pure {A B} (h : A -> B) xs :
  rmapM (fun x => Ok (h x)) xs = Ok (map h xs).
Proof. induction xs as [|x xs IH]; cbn; [reflexivity|now rewrite IH]. Qed.

Lemma supported_In (names : list string) feat :
  existsb (String.eqb feat) names = true <-> In feat names.
Proof.
  rewrite existsb_exists. split.
  - intros (x & Hx & E). apply String.eqb_eq in E. now subst.
  - intros H. exists feat. split; [exact H|apply String.eqb_refl].
Qed.

Lemma bind_ext {A B} (m m' : M A) (k k' : A -> M B) :
  (forall s, m s = m' s) -> (forall a s, k a s = k' a s) ->
  forall s, bind m k s = bind m' k' s.
Proof.
  intros Hm Hk s. unfold bind. rewrite Hm.
  destruct (m' s) as [[a|e] s']; [apply Hk|reflexivity].
Qed.

Lemma bind_run_ok {A B} (m : M A) (k : A -> M B) s a s' :
  m s = (Ok a, s') -> bind m k s = k a s'.
Proof. intros H. unfold bind. now rewrite H. Qed.

Lemma bind_run_raise {A B} (m : M A) (k : A -> M B) s e s' :
  m s = (Raise e, s') -> bind m k s = (Raise e, s').
Proof. intros H. unfold bind. now rewrite H. Qed.

Lemma bind_assoc {A B C} (m : M A) (k : A -> M B) (h : B -> M C) s :
  bind (bind m k) h s = bind m (fun a => bind (k a) h) s.
Proof. unfold bind. destruct (m s) as [[a|e] s']; reflexivity. Qed.

(** ** DataFrames *)

Lemma has_column_In col df : has_column col df = true <-> In col (df_columns df).
Proof. apply supported_In. Qed.

Lemma lookup_column_In col df :
  In col (df_columns df) <-> exists src, lookup_column col df = Some src.
Proof.
  unfold lookup_column, df_columns.
  induction df as [|[n c] df IH]; cbn [map find fst In].
  - split; [intros []|intros (src & E); discriminate].
  - destruct (String.eqb col n) eqn:E.
    + apply String.eqb_eq in E. subst. split; [eexists; reflexivity|now left].
    + apply String.eqb_neq in E. rewrite <- IH. split; [intros [H|H]|]; auto.
      now contradiction E.
Qed.

Lemma lookup_column_None col df :
  ~ In col (df_columns df) -> lookup_column col df = None.
Proof.
  intros H. destruct (lookup_column col df) as [src|] eqn:E; [|reflexivity].
  exfalso. apply H, lookup_column_In. now exists src.
Qed.

Lemma set_column_names df name s x :
  In x (df_columns (set_column df name s)) <-> In x (df_columns df) \/ x = name.
Proof.
  unfold df_columns.
  induction df as [|[n c] df IH]; cbn [set_column map fst In].
  - split; [intros [H|[]]; auto|intros [[]|H]; auto].
  - destruct (String.eqb name n) eqn:E; cbn [map fst In].
    + apply String.eqb_eq in E. subst.
      split; [tauto|intros [H|H]; [exact H|left; now symmetry]].
    + rewrite IH. tauto.
Qed.

Lemma lookup_set_same df name s :
  lookup_column name (set_column df name s) = Some s.
Proof.
  unfold lookup_column.
  induction df as [|[n c] df IH]; cbn [set_column find fst snd].
  - now rewrite String.eqb_refl.
  - destruct (String.eqb name n) eqn:E; cbn [find fst snd]; rewrite E; [reflexivity|exact IH].
Qed.

Lemma lookup_set_other df name s x :
  x <> name -> lookup_column x (set_column df name s) = lookup_column x df.
Proof.
  intros Hx. unfold lookup_column.
  induction df as [|[n c] df IH]; cbn [set_column find fst snd].
  - apply String.eqb_neq in Hx. now rewrite Hx.
  - destruct (String.eqb name n) eqn:E; cbn [find fst snd].
    + apply String.eqb_eq in E. subst.
      apply String.eqb_neq in Hx. now rewrite Hx.
    + destruct (String.eqb x n); [reflexivity|exact IH].
Qed.

Lemma set_column_twice df name s1 s2 :
  set_column (set_column df name s1) name s2 = set_column df name s2.
Proof.
  induction df as [|[n c] df IH]; cbn [set_column].
  - now rewrite String.eqb_refl.
  - destruct (String.eqb name n) eqn:E; cbn [set_column]; rewrite E; [reflexivity|].
    now rewrite IH.
Qed.

Lemma yields_series_apply {B} (f : pyval -> M B) (g : pyval -> B) src :
  (forall v, In v src -> yields (f v) (Ok (g v))) ->
  yields (series_apply f src) (Ok (map g src)).
Proof.
  intros H. unfold series_apply. rewrite <- rmapM_pure.
  eapply yields_eq; [apply (yields_mapM f (fun v => Ok (g v)) src H)|reflexivity].
Qed.

(** ** What the notebook binds *)

Lemma extractor_cells_do_not_compile :
  compile (lines cell_extract_stft_features) = IndentationError "unexpected indent"
  /\ compile (lines cell_extract_wavelet_features) = IndentationError "unexpected indent".
Proof. split; reflexivity. Qed.

(** The line after the docstring is the only one at fault: with that line at
    the indentation of the docstring, either list of lines passes the
    check. *)
Lemma extractor_cells_one_line_off :
  compile (header 0 :: stmt 4 :: stmt 4 :: skipn 3 (lines cell_extract_stft_features))
  = Compiles
  /\ compile (header 0 :: stmt 4 :: stmt 4 :: skipn 3 (lines cell_extract_wavelet_features))
     = Compiles.
Proof. split; reflexivity. Qed.

Lemma names_bound :
  run_cells notebook
  = ["apply_feature_extraction"; "apply_functions_for_server_direction";
     "apply_feature_extraction"]%string.
Proof. reflexivity. Qed.

Lemma load_global_unbound {A} name (value : A) st :
  bound name = false -> load_global name value st = (Raise (NameError name), st).
Proof. intros H. unfold load_global. now rewrite H. Qed.

Lemma stft_call_run data features_to_extract st :
  extract_stft_features data features_to_extract st
  = (Raise (NameError "extract_stft_features"), st).
Proof.
  unfold extract_stft_features. apply bind_run_raise.
  apply load_global_unbound. reflexivity.
Qed.

Lemma wavelet_call_run data features_to_extract wavelet level st :
  extract_wavelet_features data features_to_extract wavelet level st
  = (Raise (NameError "extract_wavelet_features"), st).
Proof.
  unfold extract_wavelet_features. apply bind_run_raise.
  apply load_global_unbound. reflexivity.
Qed.

(** ** The loop of apply_feature_extraction *)

(** One round of the loop on a name that is not a column. *)
Lemma loop_absent col columns st :
  has_column col (frame st) = false ->
  apply_feature_extraction_loop (col :: columns) st
  = apply_feature_extraction_loop columns st.
Proof.
  intros H. cbn [apply_feature_extraction_loop].
  rewrite (bind_run_ok get_frame _ st (frame st) st eq_refl). rewrite H.
  now rewrite (bind_run_ok (ret tt) _ st tt st eq_refl).
Qed.

(** One round of the loop on a column that exists: the column is read, and
    the evaluation of the name [extract_stft_features] raises. *)
Lemma loop_present col columns st :
  has_column col (frame st) = true ->
  apply_feature_extraction_loop (col :: columns) st
  = (Raise (NameError "extract_stft_features"), st).
Proof.
  intros H. pose proof H as Hsrc. apply has_column_In, lookup_column_In in Hsrc.
  destruct Hsrc as (src & Hsrc).
  cbn [apply_feature_extraction_loop].
  rewrite (bind_run_ok get_frame _ st (frame st) st eq_refl). rewrite H.
  apply bind_run_raise.
  erewrite bind_run_ok; cycle 1.
  { unfold df_getitem. rewrite (bind_run_ok get_frame _ st (frame st) st eq_refl).
    rewrite Hsrc. reflexivity. }
  apply bind_run_raise. apply load_global_unbound. reflexivity.
Qed.

Lemma loop_outcome columns st :
  apply_feature_extraction_loop columns st
  = if existsb (fun col => has_column col (frame st)) columns
    then (Raise (NameError "extract_stft_features"), st)
    else (Ok tt, st).
Proof.
  induction columns as [|col columns IH]; [reflexivity|]. cbn [existsb].
  destruct (has_column col (frame st)) eqn:H; cbn [orb].
  - now apply loop_present.
  - rewrite (loop_absent _ _ _ H). exact IH.
Qed.

Lemma existsb_has_column columns df :
  existsb (fun col => has_column col df) columns = false
  <-> Forall (fun col => ~ In col (df_columns df)) columns.
Proof.
  induction columns as [|col columns IH]; cbn [existsb].
  - split; [constructor|reflexivity].
  - rewrite orb_false_iff, IH. split.
    + intros (H & Hall). constructor; [|exact Hall].
      intros Hin. apply has_column_In in Hin. congruence.
    + intros Hall. inversion Hall as [|c l Hc Hl]; subst. split; [|exact Hl].
      destruct (has_column col df) eqn:Eh; [|reflexivity].
      apply has_column_In in Eh. contradiction.
Qed.

Lemma batch_run columns st :
  apply_feature_extraction columns st
  = if existsb (fun col => has_column col (frame st)) columns
    then (Raise (NameError "extract_stft_features"), st)
    else (Ok (frame st), st).
Proof.
  unfold apply_feature_extraction. pose proof (loop_outcome columns st) as H.
  destruct (existsb _ columns).
  - now apply bind_run_raise.
  - now rewrite (bind_run_ok _ _ _ _ _ H).
Qed.

(** ** The extractors *)

(** C1.  The cell of [extract_stft_features] does not compile (its line 105
    is indented deeper than the docstring before it), the name is never
    bound, and a call with any signal and any FeatureSpec raises NameError
    and leaves the state as it found it: no vector is returned, of any
    length. *)
Theorem stft_call_returns_no_vector (xs : list sample) (spec : list string)
    (st : pystate) :
  compile (lines cell_extract_stft_features) = IndentationError "unexpected indent"
  /\ bound "extract_stft_features" = false
  /\ extract_stft_features (PySeq xs) (Some spec) st
     = (Raise (NameError "extract_stft_features"), st)
  /\ forall v, outcome (extract_stft_features (PySeq xs) (Some spec)) st <> Ok v.
Proof.
  split; [reflexivity|]. split; [reflexivity|]. split; [apply stft_call_run|].
  intros v. unfold outcome. rewrite stft_call_run. discriminate.
Qed.

(** C2.  The cell of [extract_wavelet_features] does not compile (its line
    157 is indented deeper than the docstring before it), the name is never
    bound, and a call with any signal, FeatureSpec, wavelet and level raises
    NameError and leaves the state as it found it: no vector is returned. *)
Theorem wavelet_call_returns_no_vector (xs : list sample) (spec : list string)
    (wavelet : string) (L : nat) (st : pystate) :
  compile (lines cell_extract_wavelet_features) = IndentationError "unexpected indent"
  /\ bound "extract_wavelet_features" = false
  /\ extract_wavelet_features (PySeq xs) (Some spec) wavelet (Z.of_nat L) st
     = (Raise (NameError "extract_wavelet_features"), st)
  /\ forall v,
       outcome (extract_wavelet_features (PySeq xs) (Some spec) wavelet (Z.of_nat L)) st
       <> Ok v.
Proof.
  split; [reflexivity|]. split; [reflexivity|]. split; [apply wavelet_call_run|].
  intros v. unfold outcome. rewrite wavelet_call_run. discriminate.
Qed.


(** C4.  With a FeatureSpec that holds a name outside the vocabulary, as
    with any other, both calls raise NameError: for
    ["mean", "bogus_stat"] and for ["mean"] the wavelet call ends the same
    way, but with no vector of means. *)
Theorem unknown_name_calls_raise_NameError (data : pyval) (s1 s2 : list string)
    (u : string) (wavelet : string) (level : Z) (st : pystate) :
  outcome (extract_stft_features data (Some (s1 ++ u :: s2))) st
  = Raise (NameError "extract_stft_features")
  /\ outcome (extract_wavelet_features data (Some (s1 ++ u :: s2)) wavelet level) st
     = Raise (NameError "extract_wavelet_features")
  /\ outcome (extract_wavelet_features data (Some ["mean"; "bogus_stat"]%string)
                wavelet level) st
     = Raise (NameError "extract_wavelet_features")
  /\ outcome (extract_wavelet_features data (Some ["mean"]%string) wavelet level) st
     = Raise (NameError "extract_wavelet_features").
Proof.
  unfold outcome. rewrite stft_call_run, !wavelet_call_run. cbn [fst].
  repeat split.
Qed.




(** C9.  With a FeatureSpec of unsupported names only, the STFT call raises
    NameError (not the ValueError of [np.concatenate]) and the wavelet call
    raises NameError too: it does not return the empty vector. *)
Theorem all_unknown_spec_raises_NameError (data : pyval) (spec : list string)
    (wavelet : string) (level : Z) (st : pystate) :
  outcome (extract_stft_features data (Some spec)) st
  = Raise (NameError "extract_stft_features")
  /\ outcome (extract_stft_features data (Some spec)) st
     <> Raise (ValueError "need at least one array to concatenate")
  /\ outcome (extract_wavelet_features data (Some spec) wavelet level) st
     = Raise (NameError "extract_wavelet_features")
  /\ outcome (extract_wavelet_features data (Some spec) wavelet level) st <> Ok [].
Proof.
  unfold outcome. rewrite stft_call_run, wavelet_call_run. cbn [fst].
  repeat split; discriminate.
Qed.

(** ** The batch function *)

(** C5.  As soon as a requested name is a column, [apply_feature_extraction]
    raises NameError for [extract_stft_features] and leaves the DataFrame
    and the warning registry as they were: no column is added. *)
Theorem batch_raises_on_existing_column (columns : list string) (st : pystate) :
  (exists col, In col columns /\ In col (df_columns (frame st))) ->
  apply_feature_extraction columns st
  = (Raise (NameError "extract_stft_features"), st).
Proof.
  intros (col & Hcol & Hpres). rewrite batch_run.
  destruct (existsb _ columns) eqn:Hex; [reflexivity|].
  apply existsb_has_column in Hex. rewrite Forall_forall in Hex.
  now contradiction (Hex col Hcol).
Qed.

(** C10.  The two definitions of [apply_feature_extraction] are
    behaviourally equivalent: from every state (DataFrame and warning
    registry) and for every list of column names they end with the same
    result (the same returned DataFrame or the same exception) and leave the
    same DataFrame and registry behind. *)
Theorem both_definitions_agree (columns : list string) (st : pystate) :
  apply_feature_extraction_1 columns st = apply_feature_extraction columns st.
Proof.
  unfold apply_feature_extraction_1, apply_feature_extraction.
  apply bind_ext; [|reflexivity]. clear st.
  induction columns as [|col columns IH]; intros s; [reflexivity|].
  cbn [apply_feature_extraction_loop_1 apply_feature_extraction_loop].
  apply bind_ext; [reflexivity|]. intros df s'.
  apply bind_ext; [reflexivity|]. intros _ s''. apply IH.
Qed.

Lemma loop_all_absent columns st :
  Forall (fun col => ~ In col (df_columns (frame st))) columns ->
  apply_feature_extraction_loop columns st = (Ok tt, st).
Proof.
  induction 1 as [|col columns Hcol _ IH]; [reflexivity|].
  rewrite loop_absent; [exact IH|].
  destruct (has_column col (frame st)) eqn:E; [|reflexivity].
  apply has_column_In in E. contradiction.
Qed.

(** ** apply_functions_for_server_direction: lemmas *)

Lemma string_length_append s t :
  String.length (String.append s t) = (String.length s + String.length t)%nat.
Proof. induction s as [|c s IH]; cbn; [reflexivity|now rewrite IH]. Qed.

Lemma append_inj_l s s' t : String.append s t = String.append s' t -> s = s'.
Proof.
  revert s'. induction s as [|c s IH]; intros [|c' s'] H; cbn in H.
  - reflexivity.
  - exfalso. apply (f_equal String.length) in H. cbn in H.
    rewrite string_length_append in H. lia.
  - exfalso. apply (f_equal String.length) in H. cbn in H.
    rewrite string_length_append in H. lia.
  - injection H as -> H. f_equal. now apply IH.
Qed.

Lemma server_name_inj a b : server_name a = server_name b -> a = b.
Proof. apply append_inj_l. Qed.

(** One round of the loop, for a function that is pure on the cells. *)
Lemma server_round column func args rest st src value :
  lookup_column column (frame st) = Some src ->
  pure_on value src (func, args) ->
  exists reg,
    apply_functions_for_server_direction_loop column ((func, args) :: rest) st
    = apply_functions_for_server_direction_loop column rest
        {| registry := reg; frame := server_step value src (frame st) (func, args) |}
    /\ incl (registry st) reg.
Proof.
  intros Hsrc (n & r & Hargs & Hpure). cbn [fst snd] in Hargs, Hpure. subst args.
  destruct (yields_series_apply
              (fun x => n0 <- args_getitem0 (n :: r) ;; fn_call func x n0 1)
              (fun x => value func x n) src) with (st := st) as (reg & Hrun & Hincl).
  { intros x Hx. eapply yields_bind_ok; [apply yields_ret|]. now apply Hpure. }
  exists reg. split; [|exact Hincl].
  cbn [apply_functions_for_server_direction_loop].
  erewrite bind_run_ok; cycle 1.
  { unfold df_getitem. rewrite (bind_run_ok get_frame _ st (frame st) st eq_refl).
    rewrite Hsrc. reflexivity. }
  erewrite bind_run_ok; [|exact Hrun].
  erewrite bind_run_ok; cycle 1.
  { unfold df_setitem. erewrite bind_run_ok; reflexivity. }
  reflexivity.
Qed.

(** The whole loop: one assignment per tuple, in order. *)
Lemma server_loop_run column value src : forall functions_with_args st,
  lookup_column column (frame st) = Some src ->
  Forall (fun fa => server_name (fn_name (fst fa)) <> column) functions_with_args ->
  Forall (pure_on value src) functions_with_args ->
  exists reg,
    apply_functions_for_server_direction_loop column functions_with_args st
    = (Ok tt, {| registry := reg;
                 frame := fold_left (server_step value src) functions_with_args (frame st) |})
    /\ incl (registry st) reg.
Proof.
  induction functions_with_args as [|[func args] rest IH]; intros st Hsrc Hname Hpure.
  - exists (registry st). split; [now destruct st|apply incl_refl].
  - inversion Hname as [|fa l Hn Hname']; subst. inversion Hpure as [|fa l Hp Hpure']; subst.
    destruct (server_round column func args rest st src value Hsrc Hp) as (reg & -> & Hincl).
    destruct (IH {| registry := reg;
                    frame := server_step value src (frame st) (func, args) |})
      as (reg' & Hrun & Hincl'); [|exact Hname'|exact Hpure'|].
    + cbn [frame]. unfold server_step. rewrite lookup_set_other; [exact Hsrc|].
      intros E. apply Hn. now symmetry.
    + exists reg'. split; [exact Hrun|]. eapply incl_tran; [exact Hincl|exact Hincl'].
Qed.

Lemma server_fold_names value src functions_with_args : forall df name,
  In name (df_columns (fold_left (server_step value src) functions_with_args df))
  <-> In name (df_columns df)
      \/ exists fa, In fa functions_with_args /\ name = server_name (fn_name (fst fa)).
Proof.
  induction functions_with_args as [|fa rest IH]; intros df name; cbn [fold_left].
  - split; [now left|]. intros [H|(fa & [] & _)]. exact H.
  - rewrite IH. unfold server_step. rewrite set_column_names. split.
    + intros [[H| ->]|(fa' & Hin & ->)].
      * now left.
      * right. exists fa. split; [now left|reflexivity].
      * right. exists fa'. split; [now right|reflexivity].
    + intros [H|(fa' & [<-|Hin] & ->)].
      * left. now left.
      * left. now right.
      * right. exists fa'. now split.
Qed.

Lemma server_fold_other value src functions_with_args name : forall df,
  (forall fa, In fa functions_with_args -> name <> server_name (fn_name (fst fa))) ->
  lookup_column name (fold_left (server_step value src) functions_with_args df)
  = lookup_column name df.
Proof.
  induction functions_with_args as [|fa rest IH]; intros df H; cbn [fold_left];
    [reflexivity|].
  rewrite IH by (intros fa' Hin; apply H; now right).
  unfold server_step. apply lookup_set_other. apply H. now left.
Qed.

Lemma server_fold_last value src before fa after df :
  Forall (fun fa' => fn_name (fst fa') <> fn_name (fst fa)) after ->
  lookup_column (server_name (fn_name (fst fa)))
                (fold_left (server_step value src) (before ++ fa :: after) df)
  = Some (map (fun x => value (fst fa) x (first_arg (snd fa))) src).
Proof.
  intros H. rewrite fold_left_app. cbn [fold_left].
  rewrite server_fold_other; [unfold server_step; apply lookup_set_same|].
  intros fa' Hin E. apply server_name_inj in E.
  rewrite Forall_forall in H. apply (H fa' Hin). now symmetry.
Qed.

Lemma server_fold_all_empty value functions_with_args : forall df fa,
  In fa functions_with_args ->
  lookup_column (server_name (fn_name (fst fa)))
                (fold_left (server_step value []) functions_with_args df)
  = Some [].
Proof.
  induction functions_with_args as [|fa0 rest IH] using rev_ind; intros df fa Hin;
    [destruct Hin|].
  rewrite fold_left_app. cbn [fold_left]. unfold server_step at 1. cbn [map].
  destruct (string_dec (server_name (fn_name (fst fa))) (server_name (fn_name (fst fa0))))
    as [E|E].
  - rewrite E. apply lookup_set_same.
  - rewrite lookup_set_other by exact E.
    apply in_app_or in Hin. destruct Hin as [Hin|[<-|[]]]; [now apply IH|].
    now contradiction E.
Qed.

(** X12.  For functions that are pure on the cells of [column] and whose column
    names [<name>_server] differ from [column], the call returns the
    DataFrame it was given, changed in place: its column names are the old
    ones and one [<name>_server] per function name; the columns with other
    names are unchanged; the column [<name>_server] holds, row by row, the
    value of the last function of that name in the list, called on the cell
    of [column] with [n] the first additional argument of its tuple and
    [direction=1]. *)
Theorem server_adds_named_columns (column : string)
    (functions_with_args : list (pyfunc * list pyval))
    (value : pyfunc -> pyval -> pyval -> pyval) (src : Series) (st : pystate) :
  lookup_column column (frame st) = Some src ->
  Forall (fun fa => server_name (fn_name (fst fa)) <> column) functions_with_args ->
  Forall (pure_on value src) functions_with_args ->
  exists df' reg,
    apply_functions_for_server_direction column functions_with_args st
    = (Ok df', {| registry := reg; frame := df' |})
    /\ incl (registry st) reg
    /\ (forall name,
          In name (df_columns df') <->
          In name (df_columns (frame st))
          \/ exists fa, In fa functions_with_args /\ name = server_name (fn_name (fst fa)))
    /\ (forall name,
          (forall fa, In fa functions_with_args -> name <> server_name (fn_name (fst fa))) ->
          lookup_column name df' = lookup_column name (frame st))
    /\ (forall before func n args after,
          functions_with_args = before ++ (func, n :: args) :: after ->
          Forall (fun fa => fn_name (fst fa) <> fn_name func) after ->
          lookup_column (server_name (fn_name func)) df'
          = Some (map (fun x => value func x n) src)).
Proof.
  intros Hsrc Hname Hpure.
  destruct (server_loop_run column value src functions_with_args st Hsrc Hname Hpure)
    as (reg & Hrun & Hincl).
  eexists. exists reg. split.
  { unfold apply_functions_for_server_direction.
    rewrite (bind_run_ok _ _ _ _ _ Hrun). reflexivity. }
  split; [exact Hincl|]. split; [|split].
  - intros name. apply server_fold_names.
  - intros name H. now apply server_fold_other.
  - intros before func n args after -> Hafter.
    apply (server_fold_last value src before (func, n :: args) after). exact Hafter.
Qed.

(** X13.  Two functions with the same [__name__] (two lambdas, say) write the same
    column: the call with both returns the DataFrame that the call with the
    second alone returns. *)
Theorem server_same_name_last_wins (column : string) (func1 func2 : pyfunc)
    (args1 args2 : list pyval)
    (value : pyfunc -> pyval -> pyval -> pyval) (src : Series) (st : pystate) :
  lookup_column column (frame st) = Some src ->
  server_name (fn_name func2) <> column ->
  fn_name func1 = fn_name func2 ->
  pure_on value src (func1, args1) ->
  pure_on value src (func2, args2) ->
  outcome (apply_functions_for_server_direction column [(func1, args1); (func2, args2)]) st
  = outcome (apply_functions_for_server_direction column [(func2, args2)]) st.
Proof.
  intros Hsrc Hne Hsame Hp1 Hp2.
  destruct (server_loop_run column value src [(func1, args1); (func2, args2)] st Hsrc)
    as (reg & Hrun & _).
  { repeat constructor; cbn [fst]; [rewrite Hsame|]; exact Hne. }
  { now repeat constructor. }
  destruct (server_loop_run column value src [(func2, args2)] st Hsrc)
    as (reg' & Hrun' & _).
  { now repeat constructor. }
  { now repeat constructor. }
  unfold outcome, apply_functions_for_server_direction.
  rewrite (bind_run_ok _ _ _ _ _ Hrun), (bind_run_ok _ _ _ _ _ Hrun').
  cbn [get_frame fst frame fold_left]. unfold server_step. cbn [fst snd].
  rewrite Hsame. now rewrite set_column_twice.
Qed.

(** X14.  On a column without rows no function is called and no argument is
    read: whatever the functions and their tuples, the call returns, leaves
    the warning registry alone, and gives every [<name>_server] column zero
    cells; the columns with other names are unchanged. *)
Theorem server_empty_column_calls_nothing (column : string)
    (functions_with_args : list (pyfunc * list pyval)) (st : pystate) :
  lookup_column column (frame st) = Some [] ->
  exists df',
    apply_functions_for_server_direction column functions_with_args st
    = (Ok df', {| registry := registry st; frame := df' |})
    /\ (forall name,
          In name (df_columns df') <->
          In name (df_columns (frame st))
          \/ exists fa, In fa functions_with_args /\ name = server_name (fn_name (fst fa)))
    /\ (forall fa, In fa functions_with_args ->
          lookup_column (server_name (fn_name (fst fa))) df' = Some [])
    /\ (forall name,
          (forall fa, In fa functions_with_args -> name <> server_name (fn_name (fst fa))) ->
          lookup_column name df' = lookup_column name (frame st)).
Proof.
  intros Hsrc. set (value := fun (_ : pyfunc) (x _ : pyval) => x).
  assert (Hrun : apply_functions_for_server_direction_loop column functions_with_args st
                 = (Ok tt, {| registry := registry st;
                              frame := fold_left (server_step value []) functions_with_args
                                                 (frame st) |})).
  { revert st Hsrc.
    induction functions_with_args as [|[func args] rest IH]; intros st Hsrc;
      [now destruct st|].
    cbn [apply_functions_for_server_direction_loop fold_left].
    erewrite bind_run_ok; cycle 1.
    { unfold df_getitem. rewrite (bind_run_ok get_frame _ st (frame st) st eq_refl).
      rewrite Hsrc. reflexivity. }
    cbn [series_apply mapM].
    erewrite bind_run_ok; [|reflexivity].
    erewrite bind_run_ok; cycle 1.
    { unfold df_setitem. erewrite bind_run_ok; reflexivity. }
    cbn [registry frame put_frame]. fold (server_name (fn_name func)).
    rewrite IH; [reflexivity|]. cbn [frame].
    destruct (string_dec column (server_name (fn_name func))) as [->|E].
    - apply lookup_set_same.
    - rewrite lookup_set_other by exact E. exact Hsrc. }
  eexists. split.
  { unfold apply_functions_for_server_direction.
    rewrite (bind_run_ok _ _ _ _ _ Hrun). reflexivity. }
  split; [|split].
  - intros name. apply server_fold_names.
  - intros fa Hin. now apply server_fold_all_empty.
  - intros name H. now apply server_fold_other.
Qed.

(** X15.  A tuple that holds a function and no additional argument makes the call
    raise IndexError as soon as the column has a row: [args[0]] is read
    inside the lambda, for the first cell, before the function is called.
    The state is left as it was found. *)
Theorem server_missing_argument_raises (column : string) (func : pyfunc)
    (rest : list (pyfunc * list pyval)) (x : pyval) (src : Series) (st : pystate) :
  lookup_column column (frame st) = Some (x :: src) ->
  apply_functions_for_server_direction column ((func, []) :: rest) st
  = (Raise (OtherError "list index out of range"), st).
Proof.
  intros Hsrc. unfold apply_functions_for_server_direction.
  cbn [apply_functions_for_server_direction_loop].
  apply bind_run_raise.
  erewrite bind_run_ok; cycle 1.
  { unfold df_getitem. rewrite (bind_run_ok get_frame _ st (frame st) st eq_refl).
    rewrite Hsrc. reflexivity. }
  apply bind_run_raise. reflexivity.
Qed.

(** X7.  A name that is not a column is skipped by [apply_feature_extraction]
    (with only such names the call returns the DataFrame and leaves the state
    as it found it), whereas [apply_functions_for_server_direction] has no
    membership test: with at least one function it raises KeyError for a
    [column] that does not exist, before calling anything; with no function
    it returns the DataFrame untouched, whatever [column]. *)
Theorem absent_column_skipped_or_KeyError (columns : list string) (column : string)
    (functions_with_args : list (pyfunc * list pyval)) (st : pystate) :
  (Forall (fun col => ~ In col (df_columns (frame st))) columns ->
   apply_feature_extraction columns st = (Ok (frame st), st))
  /\ (~ In column (df_columns (frame st)) -> functions_with_args <> [] ->
      apply_functions_for_server_direction column functions_with_args st
      = (Raise (KeyError column), st))
  /\ apply_functions_for_server_direction column [] st = (Ok (frame st), st).
Proof.
  split; [|split].
  - intros H. unfold apply_feature_extraction.
    now rewrite (bind_run_ok _ _ _ _ _ (loop_all_absent columns st H)).
  - intros Habs Hne. destruct functions_with_args as [|[func args] rest]; [contradiction|].
    unfold apply_functions_for_server_direction.
    cbn [apply_functions_for_server_direction_loop].
    apply bind_run_raise. apply bind_run_raise.
    unfold df_getitem. rewrite (bind_run_ok get_frame _ st (frame st) st eq_refl).
    now rewrite (lookup_column_None _ _ Habs).
  - reflexivity.
Qed.

(** X18.  As the notebook stands, [apply_feature_extraction] never changes
    the DataFrame or the warning registry.  It returns the DataFrame exactly
    when no requested name is a column; when one is, it raises NameError for
    [extract_stft_features] after reading the first such column and before
    applying anything, whatever the cells of the column (even none). *)
Theorem batch_returns_iff_no_column_requested (columns : list string) (st : pystate) :
  snd (apply_feature_extraction columns st) = st
  /\ (outcome (apply_feature_extraction columns) st = Ok (frame st)
      <-> Forall (fun col => ~ In col (df_columns (frame st))) columns)
  /\ (outcome (apply_feature_extraction columns) st
      = Raise (NameError "extract_stft_features")
      <-> Exists (fun col => In col (df_columns (frame st))) columns).
Proof.
  unfold outcome. rewrite batch_run.
  destruct (existsb _ columns) eqn:Hex; cbn [fst snd].
  - split; [reflexivity|]. split.
    + split; [discriminate|]. intros H. apply existsb_has_column in H. congruence.
    + split; [|reflexivity]. intros _. apply existsb_exists in Hex.
      destruct Hex as (col & Hcol & Hhas). apply Exists_exists.
      exists col. split; [exact Hcol|now apply has_column_In].
  - apply existsb_has_column in Hex. split; [reflexivity|]. split.
    + split; [intros _; exact Hex|reflexivity].
    + split; [discriminate|]. intros H. apply Exists_exists in H.
      destruct H as (col & Hcol & Hpres). rewrite Forall_forall in Hex.
      now contradiction (Hex col Hcol).
Qed.

(** ** Splitting the list of names or of functions *)

Lemma loop_app xs ys : forall st,
  apply_feature_extraction_loop (xs ++ ys) st
  = bind (apply_feature_extraction_loop xs) (fun _ => apply_feature_extraction_loop ys) st.
Proof.
  induction xs as [|x xs IH]; intros st; cbn [app apply_feature_extraction_loop];
    [reflexivity|].
  rewrite bind_assoc. apply bind_ext; [reflexivity|]. intros df s.
  rewrite bind_assoc. apply bind_ext; [reflexivity|]. intros _ s'. apply IH.
Qed.

Lemma server_loop_app column fs gs : forall st,
  apply_functions_for_server_direction_loop column (fs ++ gs) st
  = bind (apply_functions_for_server_direction_loop column fs)
         (fun _ => apply_functions_for_server_direction_loop column gs) st.
Proof.
  induction fs as [|[func args] fs IH]; intros st;
    cbn [app apply_functions_for_server_direction_loop]; [reflexivity|].
  rewrite bind_assoc. apply bind_ext; [reflexivity|]. intros src s.
  rewrite bind_assoc. apply bind_ext; [reflexivity|]. intros cells s'.
  rewrite bind_assoc. apply bind_ext; [reflexivity|]. intros _ s''. apply IH.
Qed.

(** X11.  One call of [apply_feature_extraction] with the names [xs + ys] does
    what a call with [xs] followed by a call with [ys] on the same DataFrame
    does: same returned DataFrame or same exception, same DataFrame and
    warning registry left behind.  No assumption on the cells or the names. *)
Theorem batch_splits_over_append (xs ys : list string) (st : pystate) :
  apply_feature_extraction (xs ++ ys) st
  = (apply_feature_extraction xs ;;; apply_feature_extraction ys) st.
Proof.
  unfold apply_feature_extraction.
  transitivity (bind (bind (apply_feature_extraction_loop xs)
                           (fun _ => apply_feature_extraction_loop ys))
                     (fun _ => get_frame) st).
  { apply bind_ext; [apply loop_app|reflexivity]. }
  rewrite !bind_assoc. apply bind_ext; [reflexivity|]. intros u s. reflexivity.
Qed.

(** X16.  The same for [apply_functions_for_server_direction] and the list of
    functions, whatever the functions do. *)
Theorem server_splits_over_append (column : string)
    (fs gs : list (pyfunc * list pyval)) (st : pystate) :
  apply_functions_for_server_direction column (fs ++ gs) st
  = (apply_functions_for_server_direction column fs ;;;
     apply_functions_for_server_direction column gs) st.
Proof.
  unfold apply_functions_for_server_direction.
  transitivity (bind (bind (apply_functions_for_server_direction_loop column fs)
                           (fun _ => apply_functions_for_server_direction_loop column gs))
                     (fun _ => get_frame) st).
  { apply bind_ext; [apply server_loop_app|reflexivity]. }
  rewrite !bind_assoc. apply bind_ext; [reflexivity|]. intros u s. reflexivity.
Qed.

End Proofs.

(** * Closed instances and counterexamples *)

#[local] Existing Instance ShapeOnly.
#[local] Existing Instance Unreached.


(** [batch_raises_on_existing_column] at a table with the column [sizes] of
    one 300-sample signal. *)
Lemma batch_raises_on_existing_column_witness :
  (exists col, In col ["sizes"%string]
               /\ In col (df_columns (frame (with_frame [("sizes"%string, [signal 300])]))))
  /\ apply_feature_extraction ["sizes"%string] (with_frame [("sizes"%string, [signal 300])])
     = (Raise (NameError "extract_stft_features"),
        with_frame [("sizes"%string, [signal 300])]).
Proof.
  assert (H : exists col, In col ["sizes"%string]
                /\ In col (df_columns (frame (with_frame [("sizes"%string, [signal 300])])))).
  { exists "sizes"%string. split; now left. }
  split; [exact H|].
  exact (batch_raises_on_existing_column ["sizes"%string]
           (with_frame [("sizes"%string, [signal 300])]) H).
Defined.

(** [server_adds_named_columns] at a table with the column [sizes] and the
    two functions [keep] (returns its cell) and [give_n] (returns [n]). *)
Lemma server_adds_named_columns_witness :
  lookup_column "sizes" [("sizes"%string, [signal 3; signal 2])]
  = Some [signal 3; signal 2]
  /\ exists df',
       outcome (apply_functions_for_server_direction "sizes"
                  [(named "keep" (fun x _ => x), [PyScalar "5"]);
                   (named "give_n" (fun _ n => n), [PyScalar "7"; PyScalar "8"])])
               (with_frame [("sizes"%string, [signal 3; signal 2])]) = Ok df'
       /\ lookup_column "keep_server" df' = Some [signal 3; signal 2]
       /\ lookup_column "give_n_server" df' = Some [PyScalar "7"; PyScalar "7"]
       /\ lookup_column "sizes" df' = Some [signal 3; signal 2].
Proof.
  assert (Hsrc : lookup_column "sizes" (frame (with_frame [("sizes"%string, [signal 3; signal 2])]))
                 = Some [signal 3; signal 2]) by reflexivity.
  split; [exact Hsrc|].
  destruct (server_adds_named_columns "sizes"
              [(named "keep" (fun x _ => x), [PyScalar "5"]);
               (named "give_n" (fun _ n => n), [PyScalar "7"; PyScalar "8"])]
              result_of [signal 3; signal 2]
              (with_frame [("sizes"%string, [signal 3; signal 2])]) Hsrc)
    as (df' & reg & Hrun & _ & _ & Hother & Hlast).
  - apply Forall_cons; [discriminate|apply Forall_cons; [discriminate|apply Forall_nil]].
  - apply Forall_cons; [|apply Forall_cons; [|apply Forall_nil]].
    + exists (PyScalar "5"), []. split; [reflexivity|]. intros x _. apply yields_ret.
    + exists (PyScalar "7"), [PyScalar "8"]. split; [reflexivity|]. intros x _.
      apply yields_ret.
  - exists df'. split; [unfold outcome; now rewrite Hrun|]. split; [|split].
    + apply (Hlast [] (named "keep" (fun x _ => x)) (PyScalar "5") []
                   [(named "give_n" (fun _ n => n), [PyScalar "7"; PyScalar "8"])] eq_refl).
      apply Forall_cons; [discriminate|apply Forall_nil].
    + apply (Hlast [(named "keep" (fun x _ => x), [PyScalar "5"])]
                   (named "give_n" (fun _ n => n)) (PyScalar "7") [PyScalar "8"] [] eq_refl).
      apply Forall_nil.
    + rewrite Hother; [exact Hsrc|]. intros fa [<-|[<-|[]]]; discriminate.
Defined.

(** [server_same_name_last_wins] at two functions named [<lambda>]. *)
Lemma server_same_name_last_wins_witness :
  fn_name (named "<lambda>" (fun x _ => x)) = fn_name (named "<lambda>" (fun _ n => n))
  /\ outcome (apply_functions_for_server_direction "sizes"
                [(named "<lambda>" (fun x _ => x), [PyScalar "5"]);
                 (named "<lambda>" (fun _ n => n), [PyScalar "7"])])
             (with_frame [("sizes"%string, [signal 3])])
     = outcome (apply_functions_for_server_direction "sizes"
                  [(named "<lambda>" (fun _ n => n), [PyScalar "7"])])
               (with_frame [("sizes"%string, [signal 3])]).
Proof.
  split; [reflexivity|].
  apply (server_same_name_last_wins "sizes" (named "<lambda>" (fun x _ => x))
           (named "<lambda>" (fun _ n => n)) [PyScalar "5"] [PyScalar "7"]
           result_of [signal 3] (with_frame [("sizes"%string, [signal 3])])).
  - reflexivity.
  - discriminate.
  - reflexivity.
  - exists (PyScalar "5"), []. split; [reflexivity|]. intros x _. apply yields_ret.
  - exists (PyScalar "7"), []. split; [reflexivity|]. intros x _. apply yields_ret.
Defined.

(** [server_empty_column_calls_nothing] at a table without rows and a tuple
    without arguments. *)
Lemma server_empty_column_calls_nothing_witness :
  lookup_column "sizes" [("sizes"%string, @nil (@pyval ShapeOnly))] = Some []
  /\ exists df',
       apply_functions_for_server_direction "sizes" [(named "keep" (fun x _ => x), [])]
         (with_frame [("sizes"%string, [])])
       = (Ok df', {| registry := []; frame := df' |})
       /\ lookup_column "keep_server" df' = Some [].
Proof.
  assert (Hsrc : lookup_column "sizes" (frame (with_frame [("sizes"%string, [])])) = Some [])
    by reflexivity.
  split; [exact Hsrc|].
  destruct (server_empty_column_calls_nothing "sizes" [(named "keep" (fun x _ => x), [])]
              (with_frame [("sizes"%string, [])]) Hsrc)
    as (df' & Hrun & _ & Hempty & _).
  exists df'. split; [exact Hrun|].
  apply (Hempty (named "keep" (fun x _ => x), [])). now left.
Defined.

(** [server_missing_argument_raises] at a table with one row. *)
Lemma server_missing_argument_raises_witness :
  lookup_column "sizes" [("sizes"%string, [signal 3])] = Some [signal 3]
  /\ apply_functions_for_server_direction "sizes" [(named "keep" (fun x _ => x), [])]
       (with_frame [("sizes"%string, [signal 3])])
     = (Raise (OtherError "list index out of range"),
        with_frame [("sizes"%string, [signal 3])]).
Proof.
  assert (Hsrc : lookup_column "sizes" (frame (with_frame [("sizes"%string, [signal 3])]))
                 = Some [signal 3]) by reflexivity.
  split; [exact Hsrc|].
  exact (server_missing_argument_raises "sizes" (named "keep" (fun x _ => x)) []
           (signal 3) [] (with_frame [("sizes"%string, [signal 3])]) Hsrc).
Defined.
